(** * react-lazy-image: a shallow embedding of [src/source/index.js]

    The component [Image] is modelled as a record of its instance fields
    ([state.image], [isRequesting], [progress], the scroll subscription and
    its [XMLHttpRequest]) together with the callbacks it has emitted so far.
    The browser (scroll notifications, the XHR transport and the
    [FileReader] behind [readBlobFile]) is the environment: it drives the
    component through the [Event]s below, one [step] at a time. *)

From Stdlib Require Import String List ZArith QArith Bool Lia Lqa.
Import ListNotations.

Open Scope string_scope.
Open Scope Z_scope.
Open Scope list_scope.

(** ** JavaScript numbers

    [amountLoaded] divides two byte counts; JavaScript yields [NaN] for
    [0/0] and [Infinity] for [x/0] with [x > 0]. Finite values are kept exact
    (rationals): rounding of doubles plays no part in the claims. *)
Inductive jsnum : Type :=
| JFin (q : Q)
| JPosInf
| JNegInf
| JNaN.

Definition js_div (a b : Q) : jsnum :=
  if Qeq_bool b 0 then
    (if Qeq_bool a 0 then JNaN
     else if Qle_bool 0 a then JPosInf else JNegInf)
  else JFin (a / b).

(** [x < y] with [y] a finite number. *)
Definition js_lt (x : jsnum) (y : Q) : bool :=
  match x with
  | JFin q => negb (Qle_bool y q)
  | JPosInf => false
  | JNegInf => true
  | JNaN => false
  end.

Definition isNaN (x : jsnum) : bool :=
  match x with JNaN => true | _ => false end.

(** ** Props (the configuration of one instance) *)
Record PropType : Type := {
  offset : Q;
  source : string;
  defaultSource : string;
  type : string;
  minLoaded : Q
}.

(** ** Geometry *)
Record RectType : Type := {
  bottom : Q;
  height : Q;
  left : Q;
  right : Q;
  top : Q;
  width : Q
}.

(** What the [isInViewport] getter reads from the DOM. *)
Record Geometry : Type := {
  rect : RectType;                 (* this.element.getBoundingClientRect() *)
  innerHeight : Q;                 (* window.innerHeight *)
  innerWidth : Q;                  (* window.innerWidth *)
  clientHeight : Q;                (* document.documentElement.clientHeight *)
  clientWidth : Q                  (* document.documentElement.clientWidth *)
}.

(** JavaScript [a || b] on numbers: [a] unless it is falsy ([0]). *)
Definition js_or_num (a b : Q) : Q := if Qeq_bool a 0 then b else a.

(** The comparison of the getter, once the viewport size is known. *)
Definition inExpandedViewport (r : RectType) (viewportHeight viewportWidth off : Q)
  : bool :=
  Qle_bool (0 - off) (bottom r) &&
  Qle_bool (0 - off) (right r) &&
  negb (Qle_bool (viewportHeight + off) (top r)) &&
  negb (Qle_bool (viewportWidth + off) (left r)).

(** [get isInViewport()] *)
Definition isInViewport (p : PropType) (g : Geometry) : bool :=
  let viewportHeight := js_or_num (innerHeight g) (clientHeight g) in
  let viewportWidth := js_or_num (innerWidth g) (clientWidth g) in
  inExpandedViewport (rect g) viewportHeight viewportWidth (offset p).

(** ** The XMLHttpRequest (the transport, as the XHR standard has it) *)

(** [Loading] stands for every state in which the fetch is under way:
    "opened with the send() flag set", "headers received" and "loading". *)
Inductive XhrState : Type := Unsent | Opened | Loading | Done.

Record Xhr : Type := {
  readyState : XhrState;
  status : Z;            (* 0 for a network error or an aborted request *)
  response : string      (* the arraybuffer received *)
}.

Definition new_xhr : Xhr := {| readyState := Unsent; status := 0; response := "" |}.

(** A progress event ([loadstart], [progress], ...). The XHR standard fires
    them "with transmitted and length" and sets [lengthComputable] to
    [length <> 0]. *)
Record ProgressEvent : Type := { ev_loaded : Z; ev_total : Z }.

Definition lengthComputable (e : ProgressEvent) : bool := negb (ev_total e =? 0).

(** [send()] fires [loadstart] "with 0 and 0". *)
Definition loadstart_event : ProgressEvent := {| ev_loaded := 0; ev_total := 0 |}.

(** [new Blob([response], { type: `image/${type}` })] *)
Record Blob : Type := { blob_type : string; blob_data : string }.

(** ** Callbacks emitted to the host *)
Inductive ErrorKind : Type :=
| TransportError       (* handleError: new Error(event.response) *)
| ConversionError.     (* readBlobFile rejected with reader.error *)

Inductive Callback : Type :=
| CbLayout
| CbError (k : ErrorKind)
| CbLoad
| CbLoadEnd
| CbLoadStart
| CbAbort
| CbProgress.

(** ** The component instance *)
Inductive Phase : Type := Constructed | Mounted | Unmounted.

Record Widget : Type := {
  image : string;              (* this.state.image *)
  isRequesting : bool;         (* this.isRequesting *)
  progress_loaded : Z;         (* this.progress.loaded *)
  progress_total : Z;          (* this.progress.total *)
  listening : bool;            (* checkViewport registered on window 'scroll' *)
  phase : Phase;               (* React lifecycle *)
  request : Xhr;               (* this.request *)
  pending : list Blob;         (* readBlobFile promises not yet settled *)
  log : list Callback;         (* callbacks emitted so far, oldest first *)
  ok_transfers : list Blob     (* ghost: blobs of the complete 2xx responses
                                  the transport delivered; no code reads it *)
}.

(** Field updates. *)
Definition set_image (v : string) (w : Widget) : Widget :=
  {| image := v; isRequesting := isRequesting w; progress_loaded := progress_loaded w;
     progress_total := progress_total w; listening := listening w; phase := phase w;
     request := request w; pending := pending w; log := log w;
     ok_transfers := ok_transfers w |}.
Definition set_isRequesting (v : bool) (w : Widget) : Widget :=
  {| image := image w; isRequesting := v; progress_loaded := progress_loaded w;
     progress_total := progress_total w; listening := listening w; phase := phase w;
     request := request w; pending := pending w; log := log w;
     ok_transfers := ok_transfers w |}.
Definition set_progress (l t : Z) (w : Widget) : Widget :=
  {| image := image w; isRequesting := isRequesting w; progress_loaded := l;
     progress_total := t; listening := listening w; phase := phase w;
     request := request w; pending := pending w; log := log w;
     ok_transfers := ok_transfers w |}.
Definition set_listening (v : bool) (w : Widget) : Widget :=
  {| image := image w; isRequesting := isRequesting w; progress_loaded := progress_loaded w;
     progress_total := progress_total w; listening := v; phase := phase w;
     request := request w; pending := pending w; log := log w;
     ok_transfers := ok_transfers w |}.
Definition set_phase (v : Phase) (w : Widget) : Widget :=
  {| image := image w; isRequesting := isRequesting w; progress_loaded := progress_loaded w;
     progress_total := progress_total w; listening := listening w; phase := v;
     request := request w; pending := pending w; log := log w;
     ok_transfers := ok_transfers w |}.
Definition set_request (v : Xhr) (w : Widget) : Widget :=
  {| image := image w; isRequesting := isRequesting w; progress_loaded := progress_loaded w;
     progress_total := progress_total w; listening := listening w; phase := phase w;
     request := v; pending := pending w; log := log w;
     ok_transfers := ok_transfers w |}.
Definition set_pending (v : list Blob) (w : Widget) : Widget :=
  {| image := image w; isRequesting := isRequesting w; progress_loaded := progress_loaded w;
     progress_total := progress_total w; listening := listening w; phase := phase w;
     request := request w; pending := v; log := log w;
     ok_transfers := ok_transfers w |}.
Definition set_ok_transfers (v : list Blob) (w : Widget) : Widget :=
  {| image := image w; isRequesting := isRequesting w; progress_loaded := progress_loaded w;
     progress_total := progress_total w; listening := listening w; phase := phase w;
     request := request w; pending := pending w; log := log w;
     ok_transfers := v |}.

(** [this.props.onX({ element })] *)
Definition emit (c : Callback) (w : Widget) : Widget :=
  {| image := image w; isRequesting := isRequesting w; progress_loaded := progress_loaded w;
     progress_total := progress_total w; listening := listening w; phase := phase w;
     request := request w; pending := pending w; log := log w ++ [c];
     ok_transfers := ok_transfers w |}.

(** List removal by index (a settled promise leaves the queue). *)
Fixpoint remove_nth {A : Type} (i : nat) (l : list A) : list A :=
  match l, i with
  | [], _ => []
  | _ :: t, O => t
  | x :: t, S j => x :: remove_nth j t
  end.

(** ** Props filtering for the rendered [<img>] *)

Inductive PropValue : Type :=
| PStr (s : string)
| PNum (q : Q)
| PFun (name : string)
| PRef.

(** A JavaScript object as its list of own (key, value) pairs, in key order. *)
Definition JSObject := list (string * PropValue).

Fixpoint obj_get (o : JSObject) (k : string) : option PropValue :=
  match o with
  | [] => None
  | (k', v) :: t => if String.eqb k k' then Some v else obj_get t k
  end.

(** [{ ...o, [k]: v }]: an existing key keeps its position. *)
Fixpoint obj_set (o : JSObject) (k : string) (v : PropValue) : JSObject :=
  match o with
  | [] => [(k, v)]
  | (k', v') :: t => if String.eqb k k' then (k', v) :: t else (k', v') :: obj_set t k v
  end.

Definition obj_keys (o : JSObject) : list string := map fst o.

Definition ownProps : list string :=
  [ "onLayout"; "onError"; "onLoad"; "onLoadEnd"; "onLoadStart"; "onAbort";
    "onProgress"; "resizeMode"; "source"; "defaultSource"; "offset"; "minLoaded" ].

(** [ownProps.indexOf(propName) === -1] *)
Definition not_own (propName : string) : bool :=
  negb (existsb (String.eqb propName) ownProps).

(** [get imgProps()] *)
Definition imgProps (props : JSObject) : JSObject :=
  fold_left (fun acc propName =>
               match obj_get props propName with
               | Some v => obj_set acc propName v
               | None => acc
               end)
            (filter not_own (obj_keys props)) [].

(** The attributes of the element [render()] returns:
    [<img {...this.imgProps} ref={this.setRef} src={this.state.image} />]. *)
Definition render (props : JSObject) (img : string) : JSObject :=
  obj_set (obj_set (imgProps props) "ref" PRef) "src" (PStr img).

Section Component.

(** The instance's props, fixed for its lifetime. *)
Variable props : PropType.

(** [FileReader.readAsDataURL]: the data URL a successful read produces. *)
Variable readAsDataURL : Blob -> string.

Definition initial : Widget :=
  {| image := defaultSource props; isRequesting := false; progress_loaded := 0;
     progress_total := 1; listening := false; phase := Constructed;
     request := new_xhr; pending := []; log := []; ok_transfers := [] |}.

(** [get amountLoaded()] *)
Definition amountLoaded (w : Widget) : jsnum :=
  js_div (inject_Z (progress_loaded w * 100)) (inject_Z (progress_total w)).

(** [handleLoadStart(event)] *)
Definition handleLoadStart (e : ProgressEvent) (w : Widget) : Widget :=
  let w := set_isRequesting true w in
  let w := if lengthComputable e then set_progress 0 (ev_total e) w else w in
  emit CbLoadStart w.

(** [handleProgress(event)] *)
Definition handleProgress (e : ProgressEvent) (w : Widget) : Widget :=
  let w := if lengthComputable e
           then set_progress (ev_loaded e) (progress_total w) w else w in
  emit CbProgress w.

(** [handleLoad()] *)
Definition handleLoad (w : Widget) : Widget :=
  emit CbLoad (set_isRequesting false w).

(** [handleLoadEnd()]: on a 2xx status, start [readBlobFile(blob)]; the
    promise settles later ([settle_read] below). *)
Definition handleLoadEnd (w : Widget) : Widget :=
  if (200 <=? status (request w)) && (status (request w) <? 300) then
    let blob := {| blob_type := String.append "image/" (type props); blob_data := response (request w) |} in
    set_pending (pending w ++ [blob]) w
  else w.

(** [handleError(event)] *)
Definition handleError (w : Widget) : Widget :=
  emit (CbError TransportError) (set_isRequesting false w).

(** [handleAbort()] *)
Definition handleAbort (w : Widget) : Widget :=
  emit CbAbort (set_isRequesting false w).

(** [this.request.abort()]: on a fetch under way the XHR runs its "request
    error steps" (state done, network-error response, events [abort] then
    [loadend], whose handlers see status 0) and then, being done, returns
    to unsent; on a done request it only returns to unsent. *)
Definition xhr_abort (w : Widget) : Widget :=
  match readyState (request w) with
  | Loading =>
      let w := set_request {| readyState := Done; status := 0; response := "" |} w in
      set_request new_xhr (handleLoadEnd (handleAbort w))
  | Done => set_request new_xhr w
  | _ => w
  end.

(** [fetch()]: [open('GET', source)] then [send()], which fires [loadstart]
    synchronously. *)
Definition fetch (w : Widget) : Widget :=
  let w := set_request {| readyState := Opened; status := 0; response := "" |} w in
  let w := set_request {| readyState := Loading; status := 0; response := "" |} w in
  handleLoadStart loadstart_event w.

(** [checkViewport()] *)
Definition checkViewport (g : Geometry) (w : Widget) : Widget :=
  if isInViewport props g && negb (isRequesting w) then fetch w
  else if negb (isInViewport props g) && isRequesting w then
    if js_lt (amountLoaded w) (minLoaded props) || isNaN (amountLoaded w)
    then xhr_abort w
    else w
  else w.

(** The [readBlobFile(blob)] promise settles: [.then] or [.catch]. In the
    [.then] branch [setState] re-renders the [PureComponent] (and so calls
    [componentDidUpdate], hence [onLayout]) when the image changes, then runs
    its callback; on an unmounted component React drops the update and its
    callback. *)
Definition settle_read (b : Blob) (ok : bool) (w : Widget) : Widget :=
  if ok then
    match phase w with
    | Mounted =>
        let img := readAsDataURL b in
        let w := if String.eqb img (image w) then w else emit CbLayout (set_image img w) in
        let w := set_listening false w in
        let w := set_isRequesting false w in
        emit CbLoadEnd w
    | _ => w
    end
  else
    emit (CbError ConversionError) (set_isRequesting false w).

(** What the environment does to the component. *)
Inductive Event : Type :=
| Mount (g : Geometry)                (* componentDidMount *)
| Scroll (g : Geometry)               (* window 'scroll' *)
| XhrProgress (loaded total : Z)      (* XHR 'progress' *)
| XhrLoad (st : Z) (body : string)    (* complete response: 'load', 'loadend' *)
| XhrError                            (* network error: 'error', 'loadend' *)
| ReadSettle (i : nat) (ok : bool)    (* the i-th pending readBlobFile settles *)
| Unmount.                            (* componentWillUnmount *)

Definition step (w : Widget) (e : Event) : Widget :=
  match e with
  | Mount g =>
      match phase w with
      | Constructed =>
          let w := emit CbLayout w in
          let w := set_request new_xhr w in
          let w := set_listening true (set_phase Mounted w) in
          checkViewport g w
      | _ => w
      end
  | Scroll g => if listening w then checkViewport g w else w
  | XhrProgress l t =>
      match readyState (request w) with
      | Loading => handleProgress {| ev_loaded := l; ev_total := t |} w
      | _ => w
      end
  | XhrLoad st body =>
      match readyState (request w) with
      | Loading =>
          let blob := {| blob_type := String.append "image/" (type props); blob_data := body |} in
          let w := set_request {| readyState := Done; status := st; response := body |} w in
          let w := if (200 <=? st) && (st <? 300)
                   then set_ok_transfers (ok_transfers w ++ [blob]) w else w in
          handleLoadEnd (handleLoad w)
      | _ => w
      end
  | XhrError =>
      match readyState (request w) with
      | Loading =>
          let w := set_request {| readyState := Done; status := 0; response := "" |} w in
          handleLoadEnd (handleError w)
      | _ => w
      end
  | ReadSettle i ok =>
      match nth_error (pending w) i with
      | Some b => settle_read b ok (set_pending (remove_nth i (pending w)) w)
      | None => w
      end
  | Unmount =>
      match phase w with
      | Mounted => set_phase Unmounted (xhr_abort (set_listening false w))
      | _ => w
      end
  end.

Definition run (w : Widget) (evs : list Event) : Widget := fold_left step evs w.

Definition reachable (w : Widget) : Prop := exists evs, run initial evs = w.

End Component.

(** ** Concrete instances used by the examples below *)

Definition demo_props : PropType :=
  {| offset := 0; source := "photo.png"; defaultSource := "spinner";
     type := "*"; minLoaded := 50 |}.

Definition demo_reader (b : Blob) : string := String.append "data:" (blob_data b).

Definition mk_rect (t l b r : Q) : RectType :=
  {| bottom := b; height := b - t; left := l; right := r; top := t; width := r - l |}.

Definition mk_geometry (rc : RectType) : Geometry :=
  {| rect := rc; innerHeight := 600; innerWidth := 800; clientHeight := 600;
     clientWidth := 800 |}.

(** Scenario 2 of the spec: the element at the top left corner. *)
Definition geo_in : Geometry := mk_geometry (mk_rect 0 0 10 10).

(** Scenario 1 of the spec: the element far below the fold. *)
Definition geo_out : Geometry := mk_geometry (mk_rect 5000 0 5010 10).

Definition demo_run (evs : list Event) : Widget :=
  run demo_props demo_reader (initial demo_props) evs.

(** ** Proof infrastructure *)

Ltac unfold_widget :=
  unfold step, checkViewport, fetch, xhr_abort, settle_read, handleLoadStart,
    handleProgress, handleLoad, handleLoadEnd, handleError, handleAbort, emit,
    set_image, set_isRequesting, set_progress, set_listening, set_phase,
    set_request, set_pending, set_ok_transfers in *.

Ltac split_matches :=
  repeat match goal with
         | |- context [match ?x with _ => _ end] => destruct x eqn:?
         | |- context [if ?b then _ else _] => destruct b eqn:?
         end.

Ltac split_conj := repeat match goal with |- _ /\ _ => split end.

Section Invariants.

Variable p : PropType.
Variable rd : Blob -> string.

Lemma run_app (w : Widget) (evs1 evs2 : list Event) :
  run p rd w (evs1 ++ evs2) = run p rd (run p rd w evs1) evs2.
Proof. unfold run. apply fold_left_app. Qed.

Lemma run_ind (I : Widget -> Prop) :
  I (initial p) ->
  (forall w e, I w -> I (step p rd w e)) ->
  forall evs, I (run p rd (initial p) evs).
Proof.
  intros Hinit Hstep evs. unfold run.
  generalize (initial p) Hinit. clear Hinit.
  induction evs as [|e evs IH]; intros w Hw; simpl; auto.
Qed.

(** Frame lemmas: which handlers leave [progress.total] alone. *)
Lemma total_handleLoad w : progress_total (handleLoad w) = progress_total w.
Proof. reflexivity. Qed.
Lemma total_handleLoadEnd w : progress_total (handleLoadEnd p w) = progress_total w.
Proof. unfold handleLoadEnd. destruct (_ && _); reflexivity. Qed.
Lemma total_handleError w : progress_total (handleError w) = progress_total w.
Proof. reflexivity. Qed.
Lemma total_handleProgress e w : progress_total (handleProgress e w) = progress_total w.
Proof. unfold handleProgress. destruct (lengthComputable e); reflexivity. Qed.
Lemma total_xhr_abort w : progress_total (xhr_abort p w) = progress_total w.
Proof.
  unfold xhr_abort. destruct (readyState (request w)); try reflexivity.
Qed.
Lemma total_fetch w : progress_total (fetch w) = progress_total w.
Proof. reflexivity. Qed.
Lemma total_checkViewport g w :
  progress_total (checkViewport p g w) = progress_total w.
Proof.
  unfold checkViewport.
  destruct (isInViewport p g && negb (isRequesting w)); [apply total_fetch|].
  destruct (negb (isInViewport p g) && isRequesting w); [|reflexivity].
  destruct (_ || _); [apply total_xhr_abort | reflexivity].
Qed.
Lemma total_settle_read b ok w :
  progress_total (settle_read rd b ok w) = progress_total w.
Proof.
  unfold settle_read. destruct ok; [|reflexivity].
  destruct (phase w); try reflexivity.
  destruct (String.eqb _ _); reflexivity.
Qed.


(** [progress.total] is never zero: it starts at 1 and nothing in the
    component changes it but [handleLoadStart] on a [lengthComputable]
    event, whose total is not zero; [fetch] passes [loadstart], which is
    not [lengthComputable]. *)
Lemma step_total_nonzero (w : Widget) (e : Event) :
  progress_total w <> 0 -> progress_total (step p rd w e) <> 0.
Proof.
  intros H. destruct e; simpl;
    repeat (first [ rewrite total_checkViewport | rewrite total_handleProgress
                  | rewrite total_handleLoadEnd | rewrite total_handleLoad
                  | rewrite total_handleError | rewrite total_settle_read
                  | rewrite total_xhr_abort
                  | match goal with
                    | |- context [match ?x with _ => _ end] => destruct x
                    | |- context [if ?b then _ else _] => destruct b
                    end ]; simpl);
    exact H.
Qed.

Lemma run_total_nonzero (evs : list Event) :
  progress_total (run p rd (initial p) evs) <> 0.
Proof.
  apply run_ind; [simpl; discriminate | intros; apply step_total_nonzero; auto].
Qed.

End Invariants.

Lemma Qeq_bool_inject_Z_0 (z : Z) : z <> 0 -> Qeq_bool (inject_Z z) 0 = false.
Proof.
  intros Hz. destruct (Qeq_bool (inject_Z z) 0) eqn:E; [|reflexivity].
  apply Qeq_bool_iff in E. unfold Qeq in E. simpl in E. lia.
Qed.

Lemma amountLoaded_finite (w : Widget) :
  progress_total w <> 0 ->
  amountLoaded w = JFin (inject_Z (progress_loaded w * 100) / inject_Z (progress_total w))%Q.
Proof.
  intros H. unfold amountLoaded, js_div. rewrite Qeq_bool_inject_Z_0 by exact H.
  reflexivity.
Qed.

(** ** Claims about [checkViewport] *)

(** C1 (amended): each call of [checkViewport] on a reachable instance
    starts a transfer when the element is in the expanded viewport and no
    request is active; when the element is outside and a request is active,
    it aborts the transfer exactly when [amountLoaded] is below [minLoaded]
    (and otherwise leaves it running); it does nothing in the other two
    combinations. [amountLoaded] is always the finite quotient
    [loaded * 100 / total], never [NaN]: an unknown total is not treated as
    an undefined percentage. *)
Theorem checkViewport_decision (p : PropType) (rd : Blob -> string)
    (evs : list Event) (g : Geometry) :
  let w := run p rd (initial p) evs in
  amountLoaded w
    = JFin (inject_Z (progress_loaded w * 100) / inject_Z (progress_total w))%Q /\
  (isInViewport p g = true -> isRequesting w = false ->
     checkViewport p g w = fetch w) /\
  (isInViewport p g = false -> isRequesting w = true ->
     checkViewport p g w
       = if js_lt (amountLoaded w) (minLoaded p) then xhr_abort p w else w) /\
  (isInViewport p g = isRequesting w -> checkViewport p g w = w).
Proof.
  intros w. pose proof (run_total_nonzero p rd evs) as Htot. fold w in Htot.
  split; [apply amountLoaded_finite, Htot|].
  unfold checkViewport.
  split; [|split].
  - intros -> ->. reflexivity.
  - intros -> ->. simpl.
    rewrite amountLoaded_finite by exact Htot. simpl.
    rewrite orb_false_r. reflexivity.
  - intros E. rewrite E. destruct (isRequesting w); reflexivity.
Qed.

Lemma checkViewport_decision_witness :
  isInViewport demo_props geo_in = true /\
  isRequesting (demo_run []) = false /\
  checkViewport demo_props geo_in (demo_run []) = fetch (demo_run []) /\
  isInViewport demo_props geo_out = false /\
  isRequesting (demo_run [Mount geo_in]) = true /\
  checkViewport demo_props geo_out (demo_run [Mount geo_in])
    = xhr_abort demo_props (demo_run [Mount geo_in]) /\
  checkViewport demo_props geo_out (demo_run []) = demo_run [].
Proof.
  destruct (checkViewport_decision demo_props demo_reader [] geo_in) as [_ [H1 _]].
  destruct (checkViewport_decision demo_props demo_reader [Mount geo_in] geo_out)
    as [_ [_ [H2 _]]].
  destruct (checkViewport_decision demo_props demo_reader [] geo_out) as [_ [_ [_ H3]]].
  split; [reflexivity|]. split; [reflexivity|]. split; [apply H1; reflexivity|].
  split; [reflexivity|]. split; [reflexivity|].
  split.
  { transitivity (if js_lt (amountLoaded (demo_run [Mount geo_in])) (minLoaded demo_props)
                  then xhr_abort demo_props (demo_run [Mount geo_in])
                  else demo_run [Mount geo_in]);
      [apply H2; reflexivity|vm_compute; reflexivity]. }
  apply H3. reflexivity.
Defined.


(** ** Frame lemmas for the displayed image and the pending conversions *)

Section Frames.

Variable p : PropType.
Variable rd : Blob -> string.

(** The blob [handleLoadEnd] builds from the current response. *)
Definition blob_of_response (w : Widget) : Blob :=
  {| blob_type := String.append "image/" (type p); blob_data := response (request w) |}.

Definition status_2xx (x : Xhr) : bool := (200 <=? status x) && (status x <? 300).

(** Every blob that can reach [readBlobFile] comes from a complete 2xx
    response of the transport, and the image is the default or the data URL
    of such a response. *)
Definition image_inv (w : Widget) : Prop :=
  (image w = defaultSource p \/ exists b, In b (ok_transfers w) /\ image w = rd b) /\
  (forall b, In b (pending w) -> In b (ok_transfers w)) /\
  (status_2xx (request w) = true -> In (blob_of_response w) (ok_transfers w)).

Lemma handleLoadEnd_fields (w : Widget) :
  image (handleLoadEnd p w) = image w /\
  ok_transfers (handleLoadEnd p w) = ok_transfers w /\
  request (handleLoadEnd p w) = request w /\
  pending (handleLoadEnd p w)
    = pending w ++ (if status_2xx (request w) then [blob_of_response w] else []).
Proof.
  unfold handleLoadEnd, status_2xx, blob_of_response.
  destruct (_ && _); simpl; rewrite ?app_nil_r; repeat split.
Qed.

Lemma fetch_fields (w : Widget) :
  image (fetch w) = image w /\ ok_transfers (fetch w) = ok_transfers w /\
  pending (fetch w) = pending w /\ status (request (fetch w)) = 0.
Proof. repeat split. Qed.

Lemma xhr_abort_fields (w : Widget) :
  image (xhr_abort p w) = image w /\ ok_transfers (xhr_abort p w) = ok_transfers w /\
  pending (xhr_abort p w) = pending w /\
  (request (xhr_abort p w) = request w \/ status (request (xhr_abort p w)) = 0).
Proof.
  unfold xhr_abort. destruct (readyState (request w)) eqn:E.
  - repeat split; left; reflexivity.
  - repeat split; left; reflexivity.
  - destruct (handleLoadEnd_fields
                (handleAbort (set_request {| readyState := Done; status := 0;
                                             response := "" |} w)))
      as [H1 [H2 [H3 H4]]].
    cbn [set_request image ok_transfers pending request].
    rewrite H1, H2, H4. simpl. rewrite app_nil_r. repeat split. right. reflexivity.
  - repeat split. right. reflexivity.
Qed.

Lemma checkViewport_cases (g : Geometry) (w : Widget) :
  checkViewport p g w = fetch w \/ checkViewport p g w = xhr_abort p w \/
  checkViewport p g w = w.
Proof.
  unfold checkViewport.
  destruct (_ && negb _); [left; reflexivity|].
  destruct (_ && _); [|right; right; reflexivity].
  destruct (_ || _); [right; left | right; right]; reflexivity.
Qed.

Lemma checkViewport_fields (g : Geometry) (w : Widget) :
  image (checkViewport p g w) = image w /\
  ok_transfers (checkViewport p g w) = ok_transfers w /\
  pending (checkViewport p g w) = pending w /\
  (request (checkViewport p g w) = request w \/
   status (request (checkViewport p g w)) = 0).
Proof.
  destruct (checkViewport_cases g w) as [E|[E|E]]; rewrite E.
  - destruct (fetch_fields w) as [? [? [? ?]]]. auto.
  - apply xhr_abort_fields.
  - auto.
Qed.

Lemma In_remove_nth {A : Type} (i : nat) (l : list A) (x : A) :
  In x (remove_nth i l) -> In x l.
Proof.
  revert i. induction l as [|y l IH]; intros i H; destruct i; simpl in *;
    [exact H | exact H | right; exact H | destruct H as [H|H]; [left; exact H | right; eapply IH; eauto]].
Qed.

Lemma image_inv_checkViewport (g : Geometry) (w : Widget) :
  image_inv w -> image_inv (checkViewport p g w).
Proof.
  unfold image_inv, blob_of_response, status_2xx.
  destruct (checkViewport_fields g w) as [Hi [Ho [Hp Hr]]].
  rewrite Hi, Ho, Hp. intros [H1 [H2 H3]]. split; [exact H1|]. split; [exact H2|].
  destruct Hr as [Hr|Hr]; rewrite Hr; [exact H3|]. discriminate.
Qed.

(** The [XhrLoad] step: [load] then [loadend] on a complete response. *)
Lemma xhrload_fields (w : Widget) (st : Z) (body : string) :
  readyState (request w) = Loading ->
  let B := {| blob_type := String.append "image/" (type p); blob_data := body |} in
  let w' := step p rd w (XhrLoad st body) in
  image w' = image w /\
  ok_transfers w' = ok_transfers w ++ (if (200 <=? st) && (st <? 300) then [B] else []) /\
  pending w' = pending w ++ (if (200 <=? st) && (st <? 300) then [B] else []) /\
  request w' = {| readyState := Done; status := st; response := body |} /\
  log w' = log w ++ [CbLoad] /\ isRequesting w' = false.
Proof.
  intros Est B w'. unfold w', step. rewrite Est.
  unfold handleLoadEnd, handleLoad, emit, set_isRequesting, set_ok_transfers,
    set_request, set_pending.
  destruct ((200 <=? st) && (st <? 300)) eqn:E; cbn [request status image
    ok_transfers pending log isRequesting]; rewrite ?E, ?app_nil_r;
    split_conj; reflexivity.
Qed.

Lemma image_inv_xhrload (w : Widget) (st : Z) (body : string) :
  image_inv w -> image_inv (step p rd w (XhrLoad st body)).
Proof.
  intros Hw. destruct (readyState (request w)) eqn:Est;
    try (unfold step; rewrite Est; exact Hw).
    pose proof (xhrload_fields w st body Est) as Hf. cbv zeta in Hf.
    destruct Hf as [Hi [Ho [Hp [Hr _]]]].
    destruct Hw as [H1 [H2 H3]].
    unfold image_inv, status_2xx, blob_of_response. rewrite Hi, Ho, Hp, Hr.
    cbn [status response].
    destruct ((200 <=? st) && (st <? 300)).
    + split; [destruct H1 as [H1|[b [Hb1 Hb2]]]; [left; exact H1|right; exists b;
              split; [apply in_or_app; left; exact Hb1|exact Hb2]]|].
      split; [|intros _; apply in_or_app; right; left; reflexivity].
      intros b Hb. apply in_app_or in Hb. destruct Hb as [Hb|Hb].
      * apply in_or_app. left. auto.
      * apply in_or_app. right. exact Hb.
    + rewrite !app_nil_r. split; [exact H1|]. split; [exact H2|]. discriminate.
Qed.

Lemma image_inv_step (w : Widget) (e : Event) :
  image_inv w -> image_inv (step p rd w e).
Proof.
  intros Hw. destruct e; [| | |apply image_inv_xhrload; exact Hw| | |]; simpl.
  - destruct (phase w); [|exact Hw|exact Hw].
    apply image_inv_checkViewport. destruct Hw as [H1 [H2 H3]].
    unfold image_inv, status_2xx; simpl. split; [exact H1|split; [exact H2|discriminate]].
  - destruct (listening w); [apply image_inv_checkViewport|]; exact Hw.
  - destruct (readyState (request w)); try exact Hw.
    unfold handleProgress. destruct (lengthComputable _); exact Hw.
  - destruct (readyState (request w)); try exact Hw.
    destruct Hw as [H1 [H2 H3]].
    unfold handleError, handleLoadEnd, image_inv in *; simpl.
    split; [exact H1|split; [exact H2|discriminate]].
  - destruct (nth_error (pending w) i) as [b|] eqn:Enth; [|exact Hw].
    destruct Hw as [H1 [H2 H3]].
    assert (Hb : In b (ok_transfers w)) by (apply H2; eapply nth_error_In; eauto).
    unfold settle_read, image_inv, blob_of_response in *.
    destruct ok; simpl.
    + assert (Hrest : (forall c, In c (remove_nth i (pending w)) -> In c (ok_transfers w))
                      /\ (status_2xx (request w) = true ->
                           In {| blob_type := String.append "image/" (type p);
                                 blob_data := response (request w) |} (ok_transfers w)))
        by (split; [intros c Hc; apply H2; eapply In_remove_nth; eauto|exact H3]).
      destruct (phase w); simpl; [split; [exact H1|exact Hrest]| |split; [exact H1|exact Hrest]].
      destruct (String.eqb _ _); simpl; (split; [|exact Hrest]);
        [exact H1|right; exists b; auto].
    + split; [exact H1|split; [intros c Hc; apply H2; eapply In_remove_nth; eauto|exact H3]].
  - destruct (phase w); try exact Hw.
    destruct (xhr_abort_fields (set_listening false w)) as [Hi [Ho [Hp Hr]]].
    destruct Hw as [H1 [H2 H3]].
    unfold image_inv, status_2xx, blob_of_response in *; simpl.
    rewrite Hi, Ho, Hp. split; [exact H1|split; [exact H2|]].
    destruct Hr as [Hr|Hr]; rewrite Hr; [exact H3|discriminate].
Qed.

Lemma run_image_inv (evs : list Event) : image_inv (run p rd (initial p) evs).
Proof.
  apply run_ind.
  - unfold image_inv; simpl. split; [left; reflexivity|]. split; [tauto|discriminate].
  - intros w e. apply image_inv_step.
Qed.

End Frames.

(** Only a successful [readBlobFile] changes [state.image]. *)
Lemma image_step_cases (p : PropType) (rd : Blob -> string) (w : Widget) (e : Event) :
  image (step p rd w e) = image w \/
  exists i b, e = ReadSettle i true /\ nth_error (pending w) i = Some b /\
              image (step p rd w e) = rd b.
Proof.
  destruct e as [g|g|l t|st body| |i ok|].
  - left. simpl. destruct (phase w); try reflexivity.
    destruct (checkViewport_fields p g
                (set_listening true (set_phase Mounted (set_request new_xhr (emit CbLayout w)))))
      as [Hi _]. rewrite Hi. reflexivity.
  - left. simpl. destruct (listening w); [|reflexivity].
    destruct (checkViewport_fields p g w) as [Hi _]. exact Hi.
  - left. simpl. destruct (readyState (request w)); try reflexivity.
    unfold handleProgress. destruct (lengthComputable _); reflexivity.
  - left. destruct (readyState (request w)) eqn:Est.
    1,2,4: unfold step; rewrite Est; reflexivity.
    destruct (xhrload_fields p rd w st body Est) as [Hi _]. exact Hi.
  - left. simpl. destruct (readyState (request w)); reflexivity.
  - simpl. destruct (nth_error (pending w) i) as [b|] eqn:Enth; [|left; reflexivity].
    unfold settle_read. destruct ok; [|left; reflexivity].
    change (phase (set_pending (remove_nth i (pending w)) w)) with (phase w).
    change (image (set_pending (remove_nth i (pending w)) w)) with (image w).
    destruct (phase w); try (left; reflexivity).
    destruct (String.eqb _ _); [left; reflexivity|].
    right. exists i, b. split; [reflexivity|]. split; [exact Enth|reflexivity].
  - left. simpl. destruct (phase w); try reflexivity.
    destruct (xhr_abort_fields p (set_listening false w)) as [Hi _]. exact Hi.
Qed.

(** C5: in every reachable state [state.image] is the default source or the
    data URL of a complete 2xx transfer, and the only step that changes it is
    the successful conversion of such a transfer; no step of a partial,
    aborted or failed transfer changes it. *)
Theorem displayedImage_origin (p : PropType) (rd : Blob -> string)
    (evs : list Event) (e : Event) :
  let w := run p rd (initial p) evs in
  (image w = defaultSource p \/ exists b, In b (ok_transfers w) /\ image w = rd b) /\
  (image (step p rd w e) <> image w ->
   exists i b, e = ReadSettle i true /\ nth_error (pending w) i = Some b /\
               In b (ok_transfers w) /\ image (step p rd w e) = rd b).
Proof.
  intros w. destruct (run_image_inv p rd evs) as [H1 [H2 _]]. fold w in H1, H2.
  split; [exact H1|].
  intros Hne. destruct (image_step_cases p rd w e) as [Heq|[i [b [He [Hn Hi]]]]].
  - contradiction.
  - exists i, b. split; [exact He|]. split; [exact Hn|]. split; [|exact Hi].
    apply H2. eapply nth_error_In. exact Hn.
Qed.

Lemma displayedImage_origin_witness :
  let w := run demo_props demo_reader (initial demo_props) [Mount geo_in; XhrLoad 200 "png"] in
  image (step demo_props demo_reader w (ReadSettle 0 true)) <> image w /\
  exists i b, ReadSettle 0 true = ReadSettle i true /\
    nth_error (pending w) i = Some b /\ In b (ok_transfers w) /\
    image (step demo_props demo_reader w (ReadSettle 0 true)) = demo_reader b.
Proof.
  intros w.
  pose proof (displayedImage_origin demo_props demo_reader
                [Mount geo_in; XhrLoad 200 "png"] (ReadSettle 0 true)) as [_ H].
  fold w in H.
  assert (Hne : image (step demo_props demo_reader w (ReadSettle 0 true)) <> image w)
    by (unfold w; vm_compute; discriminate).
  split; [exact Hne|]. exact (H Hne).
Defined.

(** ** Concrete runs *)

Ltac not_in_log :=
  vm_compute; let H := fresh in
  intros H; repeat (destruct H as [H|H]; [discriminate H|]); exact H.

(** The spec's default threshold lowered to 0. *)
Definition demo_props_min0 : PropType :=
  {| offset := 0; source := "photo.png"; defaultSource := "spinner";
     type := "*"; minLoaded := 0 |}.

(** C1 (counterexample): the transport reports progress without a
    computable length (20 bytes, total unknown), so [progress] stays at
    [{loaded: 0, total: 1}], the sentinel for an unknown total. With
    [minLoaded = 0] the element then leaves the viewport while requesting,
    and the transfer is not aborted: an unknown total does not count as an
    undefined percentage. *)
Lemma unknown_total_kept :
  let w := run demo_props_min0 demo_reader (initial demo_props_min0)
             [Mount geo_in; XhrProgress 20 0] in
  lengthComputable {| ev_loaded := 20; ev_total := 0 |} = false /\
  progress_loaded w = 0 /\ progress_total w = 1 /\
  isRequesting w = true /\ isInViewport demo_props_min0 geo_out = false /\
  step demo_props_min0 demo_reader w (Scroll geo_out) = w.
Proof. intros; split_conj; vm_compute; reflexivity. Qed.

(** C2 (failing input): [handleLoad] is the handler of the XHR [load]
    event, which fires only when a response is complete. A transfer that is
    aborted emits [onAbort] and no [onLoad]; one that fails in the network
    emits [onError] (TransportError) and no [onLoad]; a successful one emits
    [onLoad] before, not after, [onLoadEnd]. And when the first conversion
    fails while a second transfer is loading, the next scroll in the
    viewport calls [fetch] again: [open()] ends the second transfer with
    none of [onAbort], [onError] or [onLoad]. *)
Lemma terminal_callbacks_without_onLoad :
  let wa := run demo_props demo_reader (initial demo_props) [Mount geo_in; Scroll geo_out] in
  let we := run demo_props demo_reader (initial demo_props) [Mount geo_in; XhrError] in
  let wr := run demo_props demo_reader (initial demo_props)
              [Mount geo_in; XhrLoad 200 "a"; Scroll geo_in; ReadSettle 0 false;
               Scroll geo_in] in
  log wa = [CbLayout; CbLoadStart; CbAbort] /\ ~ In CbLoad (log wa) /\
  log we = [CbLayout; CbLoadStart; CbError TransportError] /\ ~ In CbLoad (log we) /\
  log (run demo_props demo_reader (initial demo_props)
         [Mount geo_in; XhrLoad 200 "png"; ReadSettle 0 true])
    = [CbLayout; CbLoadStart; CbLoad; CbLayout; CbLoadEnd] /\
  log wr = [CbLayout; CbLoadStart; CbLoad; CbLoadStart; CbError ConversionError;
            CbLoadStart] /\
  readyState (request wr) = Loading.
Proof.
  intros wa we wr.
  split; [vm_compute; reflexivity|]. split; [unfold wa; not_in_log|].
  split; [vm_compute; reflexivity|]. split; [unfold we; not_in_log|].
  split_conj; vm_compute; reflexivity.
Qed.

(** C3 (counterexample): with [minLoaded = 0], an element that leaves the
    viewport right after its transfer started (total size still unknown)
    keeps its request: no abort. *)
Lemma unknown_total_not_aborted :
  let w := run demo_props_min0 demo_reader (initial demo_props_min0)
             [Mount geo_in; Scroll geo_out] in
  isInViewport demo_props_min0 geo_out = false /\
  isRequesting w = true /\ readyState (request w) = Loading /\
  ~ In CbAbort (log w).
Proof.
  split; [vm_compute; reflexivity|]. split; [vm_compute; reflexivity|].
  split; [vm_compute; reflexivity|not_in_log].
Qed.

(** C4 (counterexample): a 404 response emits [onLoad] and no [onError]. *)
Lemma status_404_no_onError :
  let w := run demo_props demo_reader (initial demo_props)
             [Mount geo_in; XhrLoad 404 "Not Found"] in
  log w = [CbLayout; CbLoadStart; CbLoad] /\ ~ In (CbError TransportError) (log w) /\
  isRequesting w = false /\ image w = "spinner".
Proof.
  split; [vm_compute; reflexivity|]. split; [not_in_log|].
  split; vm_compute; reflexivity.
Qed.

(** C6 (failing input): after the [load] event of a 200 response the
    conversion is still pending, yet [isRequesting] is already [false]; a
    scroll in the viewport then opens a second transfer, and when the first
    conversion settles [isRequesting] is [false] while that second transfer
    is under way. *)
Lemma isRequesting_cleared_before_conversion :
  let w1 := run demo_props demo_reader (initial demo_props)
              [Mount geo_in; XhrLoad 200 "png"] in
  let w2 := step demo_props demo_reader w1 (Scroll geo_in) in
  let w3 := step demo_props demo_reader w2 (ReadSettle 0 true) in
  isRequesting w1 = false /\
  pending w1 = [{| blob_type := "image/*"; blob_data := "png" |}] /\
  image w1 = "spinner" /\
  readyState (request w2) = Loading /\ log w2 = log w1 ++ [CbLoadStart] /\
  isRequesting w3 = false /\ readyState (request w3) = Loading /\
  image w3 = "data:png".
Proof. intros; split_conj; vm_compute; reflexivity. Qed.

(** C7 (failing input): after a transfer recorded 30 of 100 bytes and
    then failed in the network, a scroll in the viewport starts a new
    transfer, which keeps [progress.loaded = 30]. [handleLoadStart] would
    reset [loaded] to 0 for a [lengthComputable] event, but the [loadstart]
    fired by [send()] never is. With [minLoaded = 50] the new transfer then
    leaves the viewport with nothing of its own loaded and is not aborted. *)
Lemma start_keeps_progress :
  let w := run demo_props demo_reader (initial demo_props)
             [Mount geo_in; XhrProgress 30 100; XhrError] in
  let w' := step demo_props demo_reader w (Scroll geo_in) in
  let w'' := step demo_props demo_reader w' (Scroll geo_out) in
  isRequesting w = false /\ w' = fetch w /\
  isRequesting w' = true /\ readyState (request w') = Loading /\
  progress_loaded w' = 30 /\ progress_total w' = 1 /\
  progress_loaded (handleLoadStart {| ev_loaded := 0; ev_total := 100 |} w) = 0 /\
  readyState (request w'') = Loading /\ isRequesting w'' = true /\
  ~ In CbAbort (log w'').
Proof.
  intros w w' w''. split_conj; try (vm_compute; reflexivity).
  unfold w'', w', w. not_in_log.
Qed.

(** C8 (failing input): a [lengthComputable] progress event of 30 bytes out
    of 100 sets [progress.loaded] but leaves [progress.total] at 1, so the
    element leaving the viewport at 30% with [minLoaded = 50] (scenario 3
    of the spec) does not abort the transfer. *)
Lemma progress_total_not_updated :
  let w := run demo_props demo_reader (initial demo_props)
             [Mount geo_in; XhrProgress 30 100] in
  lengthComputable {| ev_loaded := 30; ev_total := 100 |} = true /\
  progress_loaded w = 30 /\ progress_total w = 1 /\
  amountLoaded w = JFin 3000 /\
  readyState (request (step demo_props demo_reader w (Scroll geo_out))) = Loading /\
  isRequesting (step demo_props demo_reader w (Scroll geo_out)) = true.
Proof. intros; split_conj; vm_compute; reflexivity. Qed.

(** ** Claims about the transfer handlers *)

(** C4 (amended): a complete response whose status is outside [200, 300)
    (a 404, say) emits [onLoad] only: [isRequesting] becomes [false],
    [state.image] is unchanged, no conversion is queued and no [onError]
    is emitted. *)
Theorem non2xx_response (p : PropType) (rd : Blob -> string) (w : Widget)
    (st : Z) (body : string) :
  readyState (request w) = Loading -> (200 <=? st) && (st <? 300) = false ->
  let w' := step p rd w (XhrLoad st body) in
  isRequesting w' = false /\ log w' = log w ++ [CbLoad] /\
  image w' = image w /\ pending w' = pending w.
Proof.
  intros Est E w'. unfold w', step. rewrite Est.
  unfold handleLoadEnd, handleLoad, emit, set_isRequesting, set_request.
  rewrite E. cbn [request status isRequesting log image pending].
  rewrite E. split_conj; reflexivity.
Qed.

Lemma non2xx_response_witness :
  let w := run demo_props demo_reader (initial demo_props) [Mount geo_in] in
  readyState (request w) = Loading /\ (200 <=? 404) && (404 <? 300) = false /\
  log (step demo_props demo_reader w (XhrLoad 404 "Not Found")) = log w ++ [CbLoad].
Proof.
  intros w.
  assert (E1 : readyState (request w) = Loading) by (unfold w; vm_compute; reflexivity).
  assert (E2 : (200 <=? 404) && (404 <? 300) = false) by reflexivity.
  split; [exact E1|]. split; [exact E2|].
  exact (proj1 (proj2 (non2xx_response demo_props demo_reader w 404 "Not Found" E1 E2))).
Defined.

(** C3 (amended): when the element leaves the expanded viewport while
    requesting, [checkViewport] aborts exactly when [amountLoaded] is below
    [minLoaded]: [amountLoaded] is never [NaN] (the total is never 0), and a
    progress event without a computable length leaves the progress as it
    is, so an unknown total does not force the abort. *)
Theorem leave_viewport_unknown_total (p : PropType) (rd : Blob -> string)
    (evs : list Event) (g : Geometry) :
  let w := run p rd (initial p) evs in
  isNaN (amountLoaded w) = false /\
  (forall e, lengthComputable e = false ->
     progress_loaded (handleProgress e w) = progress_loaded w /\
     progress_total (handleProgress e w) = progress_total w) /\
  (isInViewport p g = false -> isRequesting w = true ->
   checkViewport p g w = if js_lt (amountLoaded w) (minLoaded p) then xhr_abort p w else w).
Proof.
  intros w. pose proof (run_total_nonzero p rd evs) as Htot. fold w in Htot.
  split; [|split].
  - rewrite amountLoaded_finite by exact Htot. reflexivity.
  - intros e He. unfold handleProgress. rewrite He. split; reflexivity.
  - intros Hv Hr. unfold checkViewport. rewrite Hv, Hr. simpl.
    rewrite amountLoaded_finite by exact Htot. simpl. rewrite orb_false_r. reflexivity.
Qed.

Lemma leave_viewport_unknown_total_witness :
  let w := run demo_props_min0 demo_reader (initial demo_props_min0) [Mount geo_in] in
  isInViewport demo_props_min0 geo_out = false /\ isRequesting w = true /\
  checkViewport demo_props_min0 geo_out w = w.
Proof.
  intros w.
  pose proof (leave_viewport_unknown_total demo_props_min0 demo_reader [Mount geo_in] geo_out)
    as [_ [_ H]].
  fold w in H.
  assert (E1 : isInViewport demo_props_min0 geo_out = false) by (vm_compute; reflexivity).
  assert (E2 : isRequesting w = true) by (unfold w; vm_compute; reflexivity).
  split; [exact E1|]. split; [exact E2|].
  rewrite (H E1 E2). unfold w. vm_compute. reflexivity.
Defined.

(** ** Claims about the viewport test *)

Definition viewportHeight (g : Geometry) : Q := js_or_num (innerHeight g) (clientHeight g).
Definition viewportWidth (g : Geometry) : Q := js_or_num (innerWidth g) (clientWidth g).

(** The rectangle reflected both horizontally and vertically inside the
    viewport. *)
Definition reflect_rect (r : RectType) (vh vw : Q) : RectType :=
  {| bottom := vh - top r; height := height r; left := vw - right r;
     right := vw - left r; top := vh - bottom r; width := width r |}.

(** The scenario reflected: the element's rectangle mirrored, the viewport
    (a rectangle anchored at the origin) mapped onto itself. *)
Definition reflect_geometry (g : Geometry) : Geometry :=
  {| rect := reflect_rect (rect g) (viewportHeight g) (viewportWidth g);
     innerHeight := innerHeight g; innerWidth := innerWidth g;
     clientHeight := clientHeight g; clientWidth := clientWidth g |}.

Definition geo_at_fold : Geometry := mk_geometry (mk_rect 600 0 610 10).

(** C9 (counterexample): an element whose top edge lies exactly on the
    bottom edge of the viewport is out of it, and its mirror image, whose
    bottom edge lies exactly on the top edge, is in it. *)
Lemma reflection_boundary :
  isInViewport demo_props geo_at_fold = false /\
  isInViewport demo_props (reflect_geometry geo_at_fold) = true.
Proof. split; vm_compute; reflexivity. Qed.

Lemma Qle_bool_false (x y : Q) : Qle_bool x y = false <-> (y < x)%Q.
Proof.
  split; intros H.
  - apply Qnot_le_lt. intros Hle. apply Qle_bool_iff in Hle. congruence.
  - destruct (Qle_bool x y) eqn:E; [|reflexivity].
    apply Qle_bool_iff in E. exfalso. apply (Qlt_not_le y x); assumption.
Qed.

Lemma Qle_bool_negb (a b c d : Q) :
  (a <= b <-> d < c)%Q -> Qle_bool a b = negb (Qle_bool c d).
Proof.
  intros H. destruct (Qle_bool c d) eqn:E; simpl.
  - apply Qle_bool_iff in E. apply Qle_bool_false. apply Qnot_le_lt.
    intros Hab. apply H in Hab. apply (Qlt_not_le d c); assumption.
  - apply Qle_bool_false in E. apply Qle_bool_iff. apply H. exact E.
Qed.

Lemma Qle_neq_lt (x y : Q) : (x <= y)%Q -> ~ (x == y)%Q -> (x < y)%Q.
Proof. intros H1 H2. destruct (Qle_lt_or_eq x y H1); [assumption|contradiction]. Qed.

(** C9 (amended): [isInViewport] is monotone in the offset; under the
    simultaneous horizontal and vertical reflection of the scenario its
    result is unchanged unless an edge of the element lies exactly on the
    boundary of the expanded viewport, where the strict test on [top] and
    [left] and the non-strict one on [bottom] and [right] disagree. *)
Theorem isInViewport_offset_reflection (p p' : PropType) (g : Geometry) :
  (Qle (offset p) (offset p') -> isInViewport p g = true -> isInViewport p' g = true) /\
  (~ Qeq (top (rect g)) (viewportHeight g + offset p) ->
   ~ Qeq (left (rect g)) (viewportWidth g + offset p) ->
   ~ Qeq (bottom (rect g)) (0 - offset p) ->
   ~ Qeq (right (rect g)) (0 - offset p) ->
   isInViewport p (reflect_geometry g) = isInViewport p g).
Proof.
  unfold isInViewport, reflect_geometry, reflect_rect, inExpandedViewport,
    viewportHeight, viewportWidth.
  cbn [rect top bottom left right innerHeight innerWidth clientHeight clientWidth].
  set (vh := js_or_num (innerHeight g) (clientHeight g)).
  set (vw := js_or_num (innerWidth g) (clientWidth g)).
  set (r := rect g). set (o := offset p). set (o' := offset p').
  split.
  - intros Hoo H.
    rewrite !andb_true_iff, !negb_true_iff, !Qle_bool_iff, !Qle_bool_false in H.
    rewrite !andb_true_iff, !negb_true_iff, !Qle_bool_iff, !Qle_bool_false.
    destruct H as [[[H1 H2] H3] H4].
    split; [split; [split|]|]; lra.
  - intros Ht Hl Hb Hr.
    rewrite (Qle_bool_negb (0 - o) (vh - top r) (vh + o) (top r))
      by (split; intros; [apply Qle_neq_lt; [lra|exact Ht] | lra]).
    rewrite (Qle_bool_negb (0 - o) (vw - left r) (vw + o) (left r))
      by (split; intros; [apply Qle_neq_lt; [lra|exact Hl] | lra]).
    rewrite <- (Qle_bool_negb (0 - o) (bottom r) (vh + o) (vh - bottom r))
      by (split; intros; [|lra]; assert (Hlt : (0 - o < bottom r)%Q)
            by (apply Qle_neq_lt; [lra|intros E; apply Hb; symmetry; exact E]); lra).
    rewrite <- (Qle_bool_negb (0 - o) (right r) (vw + o) (vw - right r))
      by (split; intros; [|lra]; assert (Hlt : (0 - o < right r)%Q)
            by (apply Qle_neq_lt; [lra|intros E; apply Hr; symmetry; exact E]); lra).
    destruct (Qle_bool (0 - o) (bottom r)), (Qle_bool (0 - o) (right r)),
      (Qle_bool (vh + o) (top r)), (Qle_bool (vw + o) (left r)); reflexivity.
Qed.

Definition demo_props_offset100 : PropType :=
  {| offset := 100; source := "photo.png"; defaultSource := "spinner";
     type := "*"; minLoaded := 50 |}.

Lemma isInViewport_offset_reflection_witness :
  isInViewport demo_props_offset100 geo_in = true /\
  isInViewport demo_props (reflect_geometry geo_in) = isInViewport demo_props geo_in.
Proof.
  destruct (isInViewport_offset_reflection demo_props demo_props_offset100 geo_in)
    as [Hm _].
  destruct (isInViewport_offset_reflection demo_props demo_props geo_in) as [_ Hs].
  split.
  - apply Hm; [apply Qle_bool_iff; vm_compute; reflexivity | vm_compute; reflexivity].
  - apply Hs; intros E; apply Qeq_bool_iff in E; vm_compute in E; discriminate E.
Defined.

(** ** Claims about the props of the rendered element *)

Lemma obj_get_set (o : JSObject) (k k' : string) (v : PropValue) :
  obj_get (obj_set o k v) k' = if String.eqb k' k then Some v else obj_get o k'.
Proof.
  induction o as [|[k0 v0] o IH]; simpl.
  - reflexivity.
  - destruct (String.eqb k k0) eqn:E1; simpl.
    + apply String.eqb_eq in E1. subst k0. destruct (String.eqb k' k); reflexivity.
    + rewrite IH. destruct (String.eqb k' k0) eqn:E2; [|reflexivity].
      apply String.eqb_eq in E2. subst k0.
      destruct (String.eqb k' k) eqn:E3; [|reflexivity].
      apply String.eqb_eq in E3. subst k'. rewrite String.eqb_refl in E1. discriminate.
Qed.

Lemma obj_get_keys (o : JSObject) (k : string) :
  existsb (String.eqb k) (obj_keys o) = false -> obj_get o k = None.
Proof.
  induction o as [|[k0 v0] o IH]; simpl; [reflexivity|].
  intros H. apply orb_false_iff in H as [H1 H2]. rewrite H1. apply IH. exact H2.
Qed.

Lemma obj_keys_get (o : JSObject) (k : string) :
  In k (obj_keys o) -> exists v, obj_get o k = Some v.
Proof.
  induction o as [|[k0 v0] o IH]; simpl; [intros []|].
  intros [H|H].
  - subst k0. rewrite String.eqb_refl. eauto.
  - destruct (String.eqb k k0); eauto.
Qed.

Lemma fold_imgProps (props : JSObject) (ks : list string) (acc : JSObject) (k : string) :
  (forall k', In k' ks -> exists v, obj_get props k' = Some v) ->
  obj_get (fold_left (fun acc propName =>
                        match obj_get props propName with
                        | Some v => obj_set acc propName v
                        | None => acc
                        end) ks acc) k
  = if existsb (String.eqb k) ks then obj_get props k else obj_get acc k.
Proof.
  revert acc. induction ks as [|k0 ks IH]; intros acc Hks; simpl; [reflexivity|].
  rewrite IH by (intros k' Hk'; apply Hks; right; exact Hk').
  destruct (Hks k0 (or_introl eq_refl)) as [v0 Hv0]. rewrite Hv0.
  rewrite obj_get_set.
  destruct (String.eqb k k0) eqn:E; simpl.
  - apply String.eqb_eq in E. subst k0. rewrite Hv0.
    destruct (existsb _ ks); reflexivity.
  - destruct (existsb _ ks); reflexivity.
Qed.

Lemma existsb_filter (f : string -> bool) (k : string) (l : list string) :
  existsb (String.eqb k) (filter f l) = f k && existsb (String.eqb k) l.
Proof.
  induction l as [|x l IH]; simpl; [destruct (f k); reflexivity|].
  destruct (f x) eqn:Fx; simpl; rewrite IH;
    destruct (String.eqb k x) eqn:E; simpl; try (destruct (f k); reflexivity).
  - apply String.eqb_eq in E. subst x. rewrite Fx. reflexivity.
  - apply String.eqb_eq in E. subst x. rewrite Fx. reflexivity.
Qed.

(** C10 (amended): the props spread onto the rendered [<img>] ([imgProps])
    are exactly the props whose key is outside the filter list, with their
    values; so [type] is forwarded verbatim. [render] then sets [ref] and
    [src] itself: the element's [src] is [state.image], whatever [src] prop
    was given. *)
Theorem imgProps_forwarding (props : JSObject) (img : string) :
  (forall k, obj_get (imgProps props) k = if not_own k then obj_get props k else None) /\
  obj_get (imgProps props) "type" = obj_get props "type" /\
  (forall k, obj_get (render props img) k
             = if String.eqb k "src" then Some (PStr img)
               else if String.eqb k "ref" then Some PRef
               else obj_get (imgProps props) k).
Proof.
  assert (Hall : forall k, obj_get (imgProps props) k
                           = if not_own k then obj_get props k else None).
  { intros k. unfold imgProps.
    rewrite fold_imgProps.
    - rewrite existsb_filter. simpl.
      destruct (not_own k); simpl; [|reflexivity].
      destruct (existsb (String.eqb k) (obj_keys props)) eqn:E; [reflexivity|].
      symmetry. apply obj_get_keys. exact E.
    - intros k' Hk'. apply filter_In in Hk' as [Hk' _]. apply obj_keys_get. exact Hk'. }
  split; [exact Hall|]. split.
  - rewrite Hall. reflexivity.
  - intros k. unfold render. rewrite !obj_get_set. reflexivity.
Qed.

(** C10 (counterexample): a [src] prop is outside the filter list but the
    element gets [state.image] as its [src]. *)
Lemma src_prop_not_forwarded :
  not_own "src" = true /\
  obj_get (render [("src", PStr "user.png"); ("alt", PStr "photo")] "spinner") "src"
    = Some (PStr "spinner").
Proof. split; vm_compute; reflexivity. Qed.

(** ** Further properties of the component's lifecycle *)

Ltac wfields :=
  unfold emit, set_image, set_isRequesting, set_progress, set_listening, set_phase,
    set_request, set_pending, set_ok_transfers;
  cbn [image isRequesting progress_loaded progress_total listening phase request
       pending log ok_transfers readyState status response].

Section Lifecycle.

Variable p : PropType.
Variable rd : Blob -> string.

Lemma handleLoadEnd_non2xx (w : Widget) :
  status_2xx (request w) = false -> handleLoadEnd p w = w.
Proof. unfold handleLoadEnd, status_2xx. intros E. rewrite E. reflexivity. Qed.

Lemma xhr_abort_facts (w : Widget) :
  phase (xhr_abort p w) = phase w /\ listening (xhr_abort p w) = listening w /\
  (readyState (request w) = Loading ->
   readyState (request (xhr_abort p w)) = Unsent /\ isRequesting (xhr_abort p w) = false /\
   log (xhr_abort p w) = log w ++ [CbAbort]) /\
  (readyState (request w) <> Loading ->
   readyState (request (xhr_abort p w)) <> Loading /\
   isRequesting (xhr_abort p w) = isRequesting w /\ log (xhr_abort p w) = log w).
Proof.
  unfold xhr_abort. destruct (readyState (request w)) eqn:E; cbv beta iota zeta.
  1,2: split_conj; try reflexivity; intros H; [discriminate H|];
       split_conj; auto; rewrite E; discriminate.
  - rewrite handleLoadEnd_non2xx by reflexivity.
    split_conj; try reflexivity; intros H; [|contradiction].
    split_conj; reflexivity.
  - split_conj; try reflexivity; intros H; [discriminate H|].
    split_conj; [discriminate|reflexivity|reflexivity].
Qed.

Lemma checkViewport_facts (g : Geometry) (w : Widget) :
  (isRequesting w = true -> readyState (request w) = Loading) ->
  phase (checkViewport p g w) = phase w /\
  listening (checkViewport p g w) = listening w /\
  (isRequesting (checkViewport p g w) = true ->
   readyState (request (checkViewport p g w)) = Loading) /\
  (log (checkViewport p g w) = log w \/
   log (checkViewport p g w) = log w ++ [CbLoadStart] \/
   log (checkViewport p g w) = log w ++ [CbAbort]).
Proof.
  intros Hinv. unfold checkViewport.
  destruct (isInViewport p g && negb (isRequesting w)).
  { split_conj; try reflexivity; try (intros _; reflexivity).
    right; left; reflexivity. }
  destruct (negb (isInViewport p g) && isRequesting w) eqn:E;
    [|split_conj; auto].
  apply andb_true_iff in E as [_ E].
  destruct (_ || _); [|split_conj; auto].
  destruct (xhr_abort_facts w) as [H1 [H2 [H3 _]]].
  destruct (H3 (Hinv E)) as [H4 [H5 H6]].
  split_conj; auto. intros H. rewrite H5 in H. discriminate H.
Qed.

Lemma mount_initial (g : Geometry) :
  let w0 := set_listening true (set_phase Mounted (set_request new_xhr
              (emit CbLayout (initial p)))) in
  step p rd (initial p) (Mount g) = if isInViewport p g then fetch w0 else w0.
Proof.
  intros w0. unfold step, checkViewport. cbn [phase initial].
  destruct (isInViewport p g); reflexivity.
Qed.

(** The invariant the lifecycle keeps. *)
Definition lifecycle_inv (w : Widget) : Prop :=
  (phase w = Constructed -> w = initial p) /\
  (isRequesting w = true -> readyState (request w) = Loading) /\
  (phase w = Unmounted -> readyState (request w) <> Loading) /\
  (listening w = true <-> phase w = Mounted /\ ~ In CbLoadEnd (log w)).

Lemma not_in_app_single (c d : Callback) (l : list Callback) :
  c <> d -> (In c (l ++ [d]) <-> In c l).
Proof.
  intros Hcd. rewrite in_app_iff. simpl. split; [|tauto].
  intros [H|[H|[]]]; [exact H|congruence].
Qed.

Lemma lifecycle_inv_step (w : Widget) (e : Event) :
  lifecycle_inv w -> lifecycle_inv (step p rd w e).
Proof.
  intros Hw. pose proof Hw as [J1 [J2 [J3 J4]]].
  destruct e as [g|g|l t|st body| |i ok|].
  - (* Mount *)
    destruct (phase w) eqn:Ep.
    + rewrite (J1 eq_refl), mount_initial.
      destruct (isInViewport p g); unfold lifecycle_inv, fetch, handleLoadStart; simpl;
        split_conj.
      all: first [ intros H; discriminate H | intros _; reflexivity
                 | split; [intros _; split; [reflexivity|]|intros _; reflexivity];
                   intros H; repeat (destruct H as [H|H]; [discriminate H|]); exact H ].
    + unfold step. rewrite Ep. exact Hw.
    + unfold step. rewrite Ep. exact Hw.
  - (* Scroll *)
    unfold step. destruct (listening w) eqn:El; [|exact Hw].
    destruct (checkViewport_facts g w J2) as [K1 [K2 [K3 K4]]].
    assert (Hm : phase w = Mounted /\ ~ In CbLoadEnd (log w)) by (apply J4; reflexivity).
    unfold lifecycle_inv. rewrite K1, K2. split_conj.
    + intros H. rewrite (proj1 Hm) in H. discriminate H.
    + exact K3.
    + intros H. rewrite (proj1 Hm) in H. discriminate H.
    + split; [intros _; split; [apply Hm|]|intros _; exact El].
      destruct K4 as [K4|[K4|K4]]; rewrite K4;
        try (rewrite not_in_app_single by discriminate); apply Hm.
  - (* XhrProgress *)
    unfold step. destruct (readyState (request w)) eqn:Er; try exact Hw. cbv beta iota.
    unfold handleProgress. destruct (lengthComputable {| ev_loaded := l; ev_total := t |});
      unfold lifecycle_inv; wfields; rewrite not_in_app_single by discriminate;
      split_conj; auto;
      first [intros H; rewrite (J1 H) in Er; discriminate Er
            |intros H _; apply (J3 H); reflexivity].
  - (* XhrLoad *)
    destruct (readyState (request w)) eqn:Er;
      try (unfold step; rewrite Er; exact Hw).
    destruct (xhrload_fields p rd w st body Er) as [_ [_ [_ [Hr [Hl Hq]]]]].
    assert (Hph : phase (step p rd w (XhrLoad st body)) = phase w /\
                  listening (step p rd w (XhrLoad st body)) = listening w).
    { unfold step. rewrite Er. unfold handleLoadEnd.
      destruct (_ && _); destruct (_ && _); split; reflexivity. }
    destruct Hph as [Hph Hli].
    unfold lifecycle_inv. rewrite Hph, Hli, Hr, Hl, Hq.
    rewrite not_in_app_single by discriminate.
    split_conj; auto; try (intros H; discriminate H); try (intros; discriminate).
    intros H. rewrite (J1 H) in Er. discriminate Er.
  - (* XhrError *)
    unfold step. destruct (readyState (request w)) eqn:Er; try exact Hw. cbv beta iota zeta.
    rewrite handleLoadEnd_non2xx by reflexivity.
    unfold handleError. unfold lifecycle_inv; wfields.
    rewrite not_in_app_single by discriminate.
    split_conj; auto; try (intros H; discriminate H); try (intros; discriminate).
    intros H. rewrite (J1 H) in Er. discriminate Er.
  - (* ReadSettle *)
    unfold step. destruct (nth_error (pending w) i) eqn:En; [|exact Hw].
    unfold settle_read.
    change (phase (set_pending (remove_nth i (pending w)) w)) with (phase w).
    destruct ok.
    + destruct (phase w) eqn:Ep.
      * rewrite (J1 eq_refl) in En. destruct i; discriminate En.
      * destruct (String.eqb _ _); unfold lifecycle_inv; wfields;
          rewrite ?Ep; split_conj; try (intros H; discriminate H); try (intros; reflexivity);
          split; try (intros H; discriminate H);
          intros [_ H]; exfalso; apply H; apply in_or_app; right; left; reflexivity.
      * unfold lifecycle_inv; wfields; rewrite Ep.
        split_conj; auto; try (intros H; discriminate H).
    + unfold lifecycle_inv; wfields. rewrite not_in_app_single by discriminate.
      split_conj; auto; try (intros H; discriminate H).
      intros H. rewrite (J1 H) in En. destruct i; discriminate En.
  - (* Unmount *)
    unfold step. destruct (phase w) eqn:Ep; try exact Hw.
    destruct (xhr_abort_facts (set_listening false w)) as [A1 [A2 [A3 A4]]].
    change (readyState (request (set_listening false w))) with (readyState (request w)) in A3, A4.
    unfold lifecycle_inv. unfold set_phase at 1 2 3 4 5 6 7 8.
    cbn [phase listening isRequesting request log].
    rewrite A2. split_conj; try (intros H; discriminate H).
    + destruct (readyState (request w)) eqn:Er.
      1,2,4: destruct (A4 ltac:(discriminate)) as [_ [B _]]; rewrite B; intros H;
             discriminate (J2 H).
      destruct (A3 eq_refl) as [_ [B _]]. rewrite B. intros H. discriminate H.
    + intros _. destruct (readyState (request w)) eqn:Er.
      1,2,4: apply (A4 ltac:(discriminate)).
      destruct (A3 eq_refl) as [B _]. rewrite B. discriminate.
    + cbn [listening]. split; [intros H; discriminate H|intros [H _]; discriminate H].
Qed.

Lemma run_lifecycle_inv (evs : list Event) : lifecycle_inv (run p rd (initial p) evs).
Proof.
  apply run_ind; [|intros; apply lifecycle_inv_step; assumption].
  unfold lifecycle_inv. cbn. split_conj; try (intros H; discriminate H); auto.
  split; [intros H; discriminate H|intros [H _]; discriminate H].
Qed.

End Lifecycle.

Section LifecycleProps.

Variable p : PropType.
Variable rd : Blob -> string.

Lemma step_total_eq (w : Widget) (e : Event) :
  progress_total (step p rd w e) = progress_total w.
Proof.
  destruct e; simpl;
    repeat (first [ rewrite total_checkViewport | rewrite total_handleProgress
                  | rewrite total_handleLoadEnd | rewrite total_handleLoad
                  | rewrite total_handleError | rewrite total_settle_read
                  | rewrite total_xhr_abort
                  | match goal with
                    | |- context [match ?x with _ => _ end] => destruct x
                    | |- context [if ?b then _ else _] => destruct b
                    end ]; simpl);
    reflexivity.
Qed.

Lemma run_lifecycle_fields (evs : list Event) :
  let w := run p rd (initial p) evs in
  (isRequesting w = true -> readyState (request w) = Loading) /\
  (phase w = Unmounted -> readyState (request w) <> Loading) /\
  (listening w = true <-> phase w = Mounted /\ ~ In CbLoadEnd (log w)).
Proof. destruct (run_lifecycle_inv p rd evs) as [_ H]. exact H. Qed.

(** What an [Event] can do to a component that has been unmounted. *)
Definition unmounted_quiet (w : Widget) : Prop :=
  phase w = Unmounted /\ listening w = false /\ readyState (request w) <> Loading.

Lemma length_remove_nth {A : Type} (i : nat) (l : list A) (x : A) :
  nth_error l i = Some x -> S (length (remove_nth i l)) = length l.
Proof.
  revert i. induction l as [|y l IH]; intros i H; destruct i; simpl in *;
    try discriminate H; [reflexivity|].
  rewrite (IH i H). reflexivity.
Qed.

Ltac unchanged Hq :=
  split_conj; [exact Hq|reflexivity|left; split; [reflexivity|apply le_n]].

Lemma unmounted_step (w : Widget) (e : Event) :
  unmounted_quiet w ->
  unmounted_quiet (step p rd w e) /\ image (step p rd w e) = image w /\
  ((log (step p rd w e) = log w /\
    (length (pending (step p rd w e)) <= length (pending w))%nat) \/
   (log (step p rd w e) = log w ++ [CbError ConversionError] /\
    S (length (pending (step p rd w e))) = length (pending w))).
Proof.
  intros Hq. pose proof Hq as [Hp [Hl Hr]].
  destruct e as [g|g|l t|st body| |i ok|]; unfold step.
  - rewrite Hp. unchanged Hq.
  - rewrite Hl. unchanged Hq.
  - destruct (readyState (request w)) eqn:Er; try (unchanged Hq; fail).
    contradiction.
  - destruct (readyState (request w)) eqn:Er; try (unchanged Hq; fail).
    contradiction.
  - destruct (readyState (request w)) eqn:Er; try (unchanged Hq; fail).
    contradiction.
  - destruct (nth_error (pending w) i) eqn:En; [|unchanged Hq].
    pose proof (length_remove_nth i (pending w) b En) as Hlen.
    unfold settle_read.
    change (phase (set_pending (remove_nth i (pending w)) w)) with (phase w).
    rewrite Hp. destruct ok; unfold unmounted_quiet; wfields; split_conj;
      try solve [auto];
      first [left; split; [reflexivity|lia] | right; split; [reflexivity|lia]].
  - rewrite Hp. unchanged Hq.
Qed.

(** Events after which the component keeps waiting for the element to come
    into view: anything but unmounting, a conversion that succeeds, or a
    scroll that finds the element in the viewport. *)
Definition keeps_waiting (e : Event) : bool :=
  match e with
  | Scroll g => negb (isInViewport p g)
  | ReadSettle _ ok => negb ok
  | Unmount => false
  | _ => true
  end.

Definition waiting (w : Widget) : Prop :=
  listening w = true /\ isRequesting w = false /\ phase w = Mounted.

Lemma waiting_step (w : Widget) (e : Event) :
  waiting w -> keeps_waiting e = true -> waiting (step p rd w e).
Proof.
  intros Hw He. pose proof Hw as [Hl [Hq Hp]].
  destruct e as [g|g|l t|st body| |i ok|]; unfold step.
  - rewrite Hp. exact Hw.
  - rewrite Hl. unfold checkViewport. simpl in He. apply negb_true_iff in He.
    rewrite He, Hq. exact Hw.
  - destruct (readyState (request w)); try exact Hw.
    unfold handleProgress. destruct (lengthComputable _); unfold waiting; wfields;
      split_conj; assumption.
  - destruct (readyState (request w)) eqn:Er; try exact Hw. cbv beta iota zeta.
    unfold handleLoadEnd, handleLoad.
    destruct (_ && _); destruct (_ && _); unfold waiting; wfields;
      split_conj; first [assumption|reflexivity].
  - destruct (readyState (request w)); try exact Hw.
    rewrite handleLoadEnd_non2xx by reflexivity.
    unfold handleError, waiting; wfields. split_conj; first [assumption|reflexivity].
  - simpl in He. destruct ok; [discriminate He|].
    destruct (nth_error (pending w) i); [|exact Hw].
    unfold settle_read, waiting; wfields. split_conj; first [assumption|reflexivity].
  - discriminate He.
Qed.

Lemma waiting_run (w : Widget) (mid : list Event) :
  waiting w -> forallb keeps_waiting mid = true -> waiting (run p rd w mid).
Proof.
  unfold run. revert w. induction mid as [|e mid IH]; intros w Hw Hm; [exact Hw|].
  simpl in Hm. apply andb_true_iff in Hm as [He Hm].
  apply IH; [apply waiting_step|]; assumption.
Qed.

Lemma waiting_scroll_in (w : Widget) (g : Geometry) :
  waiting w -> isInViewport p g = true -> step p rd w (Scroll g) = fetch w.
Proof.
  intros [Hl [Hq _]] Hin. unfold step. rewrite Hl. unfold checkViewport.
  rewrite Hin, Hq. reflexivity.
Qed.

(** ** X2: [componentDidMount] *)
Theorem componentDidMount_effect (g : Geometry) :
  let w := step p rd (initial p) (Mount g) in
  phase w = Mounted /\ listening w = true /\ image w = defaultSource p /\
  log w = CbLayout :: (if isInViewport p g then [CbLoadStart] else []) /\
  isRequesting w = isInViewport p g /\
  readyState (request w) = (if isInViewport p g then Loading else Unsent).
Proof.
  intros w. unfold w. rewrite mount_initial.
  destruct (isInViewport p g); split_conj; reflexivity.
Qed.

(** ** X3: the scroll subscription *)
Theorem scroll_subscription (evs : list Event) :
  let w := run p rd (initial p) evs in
  listening w = true <-> phase w = Mounted /\ ~ In CbLoadEnd (log w).
Proof. apply run_lifecycle_fields. Qed.

(** ** X4: scrolling after success or after unmounting does nothing *)
Theorem scroll_ignored_when_done (evs : list Event) (g : Geometry) :
  let w := run p rd (initial p) evs in
  In CbLoadEnd (log w) \/ phase w = Unmounted ->
  step p rd w (Scroll g) = w.
Proof.
  intros w H. destruct (run_lifecycle_fields evs) as [_ [_ Hl]]. fold w in Hl.
  unfold step. destruct (listening w) eqn:E; [|reflexivity].
  destruct (proj1 Hl eq_refl) as [Hm Hn].
  destruct H as [H|H]; [contradiction|]. rewrite Hm in H. discriminate H.
Qed.

(** ** X5: [isRequesting] means the transfer is under way *)
Theorem isRequesting_loading (evs : list Event) :
  let w := run p rd (initial p) evs in
  isRequesting w = true ->
  readyState (request w) = Loading /\
  isRequesting (xhr_abort p w) = false /\ log (xhr_abort p w) = log w ++ [CbAbort].
Proof.
  intros w H. destruct (run_lifecycle_fields evs) as [Hr _]. fold w in Hr.
  specialize (Hr H).
  destruct (xhr_abort_facts p w) as [_ [_ [A _]]].
  destruct (A Hr) as [_ [A2 A3]]. split_conj; assumption.
Qed.

(** ** X6: after [componentWillUnmount]

    Whatever events follow, the component stays unmounted, unsubscribed and
    without a download in flight, its image does not change, the pending
    conversions never grow, and the only callbacks still emitted are
    [onError] (ConversionError), at most one for each conversion pending at
    the time: [n + length (pending w') <= length (pending w)]. *)
Theorem after_unmount (evs evs' : list Event) :
  let w := run p rd (initial p) evs in
  phase w = Unmounted ->
  let w' := run p rd w evs' in
  phase w' = Unmounted /\ listening w' = false /\ readyState (request w') <> Loading /\
  image w' = image w /\
  exists n, log w' = log w ++ repeat (CbError ConversionError) n /\
            (n + length (pending w') <= length (pending w))%nat.
Proof.
  intros w Hp.
  destruct (run_lifecycle_fields evs) as [_ [Hr Hl]]. fold w in Hr, Hl.
  assert (Hq : unmounted_quiet w).
  { unfold unmounted_quiet. split_conj; [exact Hp| |exact (Hr Hp)].
    destruct (listening w) eqn:E; [|reflexivity].
    destruct (proj1 Hl eq_refl) as [Hm _]. rewrite Hm in Hp. discriminate Hp. }
  cbv zeta.
  cut (unmounted_quiet (run p rd w evs') /\ image (run p rd w evs') = image w /\
       exists n, log (run p rd w evs') = log w ++ repeat (CbError ConversionError) n /\
                 (n + length (pending (run p rd w evs')) <= length (pending w))%nat).
  { intros [[H1 [H2 H3]] [H4 H5]]. split_conj; assumption. }
  clear Hp Hr Hl. unfold run. generalize w Hq. clear w Hq.
  induction evs' as [|e evs' IH]; intros w Hq.
  - split_conj; [exact Hq|reflexivity|]. exists 0%nat.
    split; [symmetry; apply app_nil_r|apply le_n].
  - simpl. destruct (unmounted_step w e Hq) as [Hq' [Hi Hlog]].
    destruct (IH (step p rd w e) Hq') as [H1 [H2 [n [H3 H4]]]].
    split_conj; [exact H1|rewrite H2; exact Hi|].
    destruct Hlog as [[Hlog Hlen]|[Hlog Hlen]]; rewrite Hlog in H3.
    + exists n. split; [exact H3|lia].
    + exists (S n). split; [rewrite H3, <- app_assoc; reflexivity|lia].
Qed.

(** ** X7: [progress.total] stays 1, so [amountLoaded] is [loaded * 100] *)
Theorem progress_total_one (evs : list Event) :
  let w := run p rd (initial p) evs in
  progress_total w = 1 /\
  amountLoaded w = JFin (inject_Z (progress_loaded w * 100) / inject_Z 1).
Proof.
  intros w.
  assert (H : progress_total w = 1).
  { unfold w. apply (run_ind p rd (fun w => progress_total w = 1));
      [reflexivity|intros w' e He; rewrite step_total_eq; exact He]. }
  split; [exact H|]. unfold amountLoaded. rewrite H. reflexivity.
Qed.

(** ** X8: an aborted download is restarted once the element is back in view

    Leaving the viewport with too little loaded aborts the download. Any
    events may follow as long as they neither unmount the component nor
    complete a conversion ([keeps_waiting]): out-of-view scrolls, transport
    events, failed conversions. The next scroll that finds the element in
    the viewport then starts a new [fetch]. *)
Theorem abort_then_restart (evs mid : list Event) (g_out g_in : Geometry) :
  let w := run p rd (initial p) evs in
  listening w = true -> isRequesting w = true ->
  isInViewport p g_out = false ->
  js_lt (amountLoaded w) (minLoaded p) || isNaN (amountLoaded w) = true ->
  forallb keeps_waiting mid = true ->
  isInViewport p g_in = true ->
  let w1 := step p rd w (Scroll g_out) in
  let w2 := run p rd w1 mid in
  w1 = xhr_abort p w /\ log w1 = log w ++ [CbAbort] /\ isRequesting w1 = false /\
  step p rd w2 (Scroll g_in) = fetch w2.
Proof.
  intros w Hl Hq Hout Hlow Hmid Hin w1 w2.
  destruct (run_lifecycle_fields evs) as [Hr [_ Hsub]]. fold w in Hr, Hsub.
  destruct (xhr_abort_facts p w) as [A0 [A1 [A2 _]]].
  destruct (A2 (Hr Hq)) as [_ [A3 A4]].
  assert (E : w1 = xhr_abort p w).
  { unfold w1, step. cbv beta iota. rewrite Hl. unfold checkViewport.
    rewrite Hout, Hq. simpl. rewrite Hlow. reflexivity. }
  split_conj; [exact E|rewrite E; exact A4|rewrite E; exact A3|].
  apply waiting_scroll_in; [|exact Hin].
  apply waiting_run; [|exact Hmid].
  rewrite E. unfold waiting. split_conj; [rewrite A1; exact Hl|exact A3|].
  rewrite A0. apply (proj1 (proj1 Hsub Hl)).
Qed.

(** ** X9: a failed conversion keeps the subscription, so the image is fetched again

    On a mounted component that has not emitted [onLoadEnd], a failed
    conversion keeps the image and emits [onError] (ConversionError). Any
    events that neither unmount the component nor complete a conversion
    may follow; the next scroll that finds the element in the viewport
    starts a new [fetch]. *)
Theorem conversion_error_refetch (evs mid : list Event) (i : nat) (b : Blob)
    (g : Geometry) :
  let w := run p rd (initial p) evs in
  phase w = Mounted -> ~ In CbLoadEnd (log w) ->
  nth_error (pending w) i = Some b ->
  forallb keeps_waiting mid = true ->
  isInViewport p g = true ->
  let w1 := step p rd w (ReadSettle i false) in
  let w2 := run p rd w1 mid in
  image w1 = image w /\ log w1 = log w ++ [CbError ConversionError] /\
  step p rd w2 (Scroll g) = fetch w2.
Proof.
  intros w Hm Hn Hb Hmid Hin w1 w2.
  destruct (run_lifecycle_fields evs) as [_ [_ Hl]]. fold w in Hl.
  assert (Hl' : listening w = true) by (apply Hl; split; assumption).
  assert (E1 : w1 = emit (CbError ConversionError)
                      (set_isRequesting false (set_pending (remove_nth i (pending w)) w)))
    by (unfold w1, step; cbv beta iota; rewrite Hb; reflexivity).
  split_conj; [rewrite E1; reflexivity|rewrite E1; reflexivity|].
  apply waiting_scroll_in; [|exact Hin].
  apply waiting_run; [|exact Hmid].
  rewrite E1. unfold waiting; wfields. split_conj; [exact Hl'|reflexivity|exact Hm].
Qed.

(** ** X11: how a download under way ends

    From a loading XHR, a network error emits [onError] (TransportError),
    queues no conversion and leaves the XHR done; [abort()] emits
    [onAbort], queues no conversion and leaves the XHR unsent; a complete
    response emits [onLoad], leaves the XHR done and queues a conversion
    exactly when its status is 2xx. Each of them clears [isRequesting]. *)
Theorem transport_outcomes (w : Widget) :
  readyState (request w) = Loading ->
  (log (step p rd w XhrError) = log w ++ [CbError TransportError] /\
   isRequesting (step p rd w XhrError) = false /\
   pending (step p rd w XhrError) = pending w /\
   readyState (request (step p rd w XhrError)) = Done) /\
  (log (xhr_abort p w) = log w ++ [CbAbort] /\
   isRequesting (xhr_abort p w) = false /\
   pending (xhr_abort p w) = pending w /\
   readyState (request (xhr_abort p w)) = Unsent) /\
  (forall st body,
     log (step p rd w (XhrLoad st body)) = log w ++ [CbLoad] /\
     isRequesting (step p rd w (XhrLoad st body)) = false /\
     pending (step p rd w (XhrLoad st body))
       = pending w ++ (if (200 <=? st) && (st <? 300)
                       then [{| blob_type := String.append "image/" (type p);
                                blob_data := body |}] else []) /\
     readyState (request (step p rd w (XhrLoad st body))) = Done).
Proof.
  intros Est. split; [|split].
  - unfold step. rewrite Est. cbv beta iota zeta.
    rewrite handleLoadEnd_non2xx by reflexivity.
    unfold handleError; wfields. split_conj; reflexivity.
  - unfold xhr_abort. rewrite Est. cbv beta iota zeta.
    rewrite handleLoadEnd_non2xx by reflexivity.
    unfold handleAbort; wfields. split_conj; reflexivity.
  - intros st body.
    destruct (xhrload_fields p rd w st body Est) as [_ [_ [Hp [Hr [Hl Hq]]]]].
    rewrite Hp, Hr, Hl, Hq. split_conj; reflexivity.
Qed.

End LifecycleProps.

(** ** X10: [imgProps] keeps the order of the forwarded props *)
Lemma obj_keys_set_new (acc : JSObject) (k : string) (v : PropValue) :
  ~ In k (obj_keys acc) -> obj_keys (obj_set acc k v) = obj_keys acc ++ [k].
Proof.
  induction acc as [|[k' v'] t IH]; intros H; [reflexivity|].
  simpl in *. destruct (String.eqb k k') eqn:E.
  - apply String.eqb_eq in E. subst. exfalso. apply H. left. reflexivity.
  - simpl. rewrite IH; [reflexivity|]. intros H'. apply H. right. exact H'.
Qed.

Lemma fold_imgProps_keys (props : JSObject) (ks : list string) (acc : JSObject) :
  NoDup ks -> (forall k, In k ks -> ~ In k (obj_keys acc)) ->
  (forall k, In k ks -> exists v, obj_get props k = Some v) ->
  obj_keys (fold_left (fun acc propName =>
                         match obj_get props propName with
                         | Some v => obj_set acc propName v
                         | None => acc
                         end) ks acc) = obj_keys acc ++ ks.
Proof.
  revert acc. induction ks as [|k ks IH]; intros acc Hnd Hdis Hget.
  - symmetry. apply app_nil_r.
  - simpl. inversion Hnd as [|? ? Hk Hnd']. subst.
    destruct (Hget k (or_introl eq_refl)) as [v Hv]. rewrite Hv.
    rewrite IH.
    + rewrite obj_keys_set_new by (apply Hdis; left; reflexivity).
      rewrite <- app_assoc. reflexivity.
    + exact Hnd'.
    + intros k' Hk'. rewrite obj_keys_set_new by (apply Hdis; left; reflexivity).
      intros Hin. apply in_app_or in Hin as [Hin|Hin].
      * exact (Hdis k' (or_intror Hk') Hin).
      * destruct Hin as [Hin|[]]. subst. contradiction.
    + intros k' Hk'. apply Hget. right. exact Hk'.
Qed.

Theorem imgProps_keys (props : JSObject) :
  NoDup (obj_keys props) ->
  obj_keys (imgProps props) = filter not_own (obj_keys props).
Proof.
  intros Hnd. unfold imgProps. rewrite fold_imgProps_keys.
  - reflexivity.
  - apply NoDup_filter, Hnd.
  - intros k _ [].
  - intros k Hk. apply filter_In in Hk as [Hk _]. apply obj_keys_get, Hk.
Qed.

(** ** Examples of the lifecycle properties *)

Lemma scroll_ignored_when_done_witness :
  let evs := [Mount geo_in; XhrLoad 200 "png"; ReadSettle 0 true] in
  let w := run demo_props demo_reader (initial demo_props) evs in
  In CbLoadEnd (log w) /\ step demo_props demo_reader w (Scroll geo_in) = w.
Proof.
  intros evs w.
  assert (E : log w = [CbLayout; CbLoadStart; CbLoad; CbLayout; CbLoadEnd])
    by (unfold w; vm_compute; reflexivity).
  assert (H : In CbLoadEnd (log w)) by (rewrite E; simpl; tauto).
  split; [exact H|].
  exact (scroll_ignored_when_done demo_props demo_reader evs geo_in (or_introl H)).
Defined.

Lemma isRequesting_loading_witness :
  let w := run demo_props demo_reader (initial demo_props) [Mount geo_in] in
  isRequesting w = true /\ readyState (request w) = Loading /\
  log (xhr_abort demo_props w) = log w ++ [CbAbort].
Proof.
  intros w. assert (H : isRequesting w = true) by (unfold w; vm_compute; reflexivity).
  destruct (isRequesting_loading demo_props demo_reader [Mount geo_in] H) as [H1 [_ H3]].
  split_conj; assumption.
Defined.

Lemma after_unmount_witness :
  let evs := [Mount geo_in; XhrLoad 200 "png"; Unmount] in
  let w := run demo_props demo_reader (initial demo_props) evs in
  let w' := run demo_props demo_reader w
              [ReadSettle 0 false; Scroll geo_in; Mount geo_in; XhrError] in
  phase w = Unmounted /\ listening w' = false /\ readyState (request w') <> Loading /\
  image w' = image w /\
  exists n, log w' = log w ++ repeat (CbError ConversionError) n /\
            (n + length (pending w') <= length (pending w))%nat.
Proof.
  intros evs w w'.
  assert (H : phase w = Unmounted) by (unfold w; vm_compute; reflexivity).
  destruct (after_unmount demo_props demo_reader evs
              [ReadSettle 0 false; Scroll geo_in; Mount geo_in; XhrError] H)
    as [_ [H2 [H3 [H4 H5]]]].
  split_conj; assumption.
Defined.

Lemma abort_then_restart_witness :
  let w := run demo_props demo_reader (initial demo_props) [Mount geo_in] in
  let mid := [Scroll geo_out; XhrProgress 5 10; XhrError; ReadSettle 0 false] in
  let w1 := step demo_props demo_reader w (Scroll geo_out) in
  let w2 := run demo_props demo_reader w1 mid in
  log w1 = log w ++ [CbAbort] /\ isRequesting w1 = false /\
  step demo_props demo_reader w2 (Scroll geo_in) = fetch w2.
Proof.
  intros w mid w1 w2.
  assert (H1 : listening w = true) by (unfold w; vm_compute; reflexivity).
  assert (H2 : isRequesting w = true) by (unfold w; vm_compute; reflexivity).
  assert (H3 : isInViewport demo_props geo_out = false) by (vm_compute; reflexivity).
  assert (H4 : js_lt (amountLoaded w) (minLoaded demo_props) || isNaN (amountLoaded w) = true)
    by (unfold w; vm_compute; reflexivity).
  assert (H5 : forallb (keeps_waiting demo_props) mid = true) by (vm_compute; reflexivity).
  assert (H6 : isInViewport demo_props geo_in = true) by (vm_compute; reflexivity).
  destruct (abort_then_restart demo_props demo_reader [Mount geo_in] mid geo_out geo_in
              H1 H2 H3 H4 H5 H6) as [_ [R1 [R2 R3]]].
  split_conj; assumption.
Defined.

Lemma conversion_error_refetch_witness :
  let evs := [Mount geo_in; XhrLoad 200 "png"] in
  let mid := [Scroll geo_out; XhrProgress 1 2; Mount geo_in] in
  let w := run demo_props demo_reader (initial demo_props) evs in
  let w1 := step demo_props demo_reader w (ReadSettle 0 false) in
  let w2 := run demo_props demo_reader w1 mid in
  log w1 = log w ++ [CbError ConversionError] /\
  step demo_props demo_reader w2 (Scroll geo_in) = fetch w2.
Proof.
  intros evs mid w w1 w2.
  assert (H1 : phase w = Mounted) by (unfold w; vm_compute; reflexivity).
  assert (H2 : ~ In CbLoadEnd (log w)) by (unfold w; not_in_log).
  assert (H3 : nth_error (pending w) 0 = Some {| blob_type := "image/*"; blob_data := "png" |})
    by (unfold w; vm_compute; reflexivity).
  assert (H4 : forallb (keeps_waiting demo_props) mid = true) by (vm_compute; reflexivity).
  assert (H5 : isInViewport demo_props geo_in = true) by (vm_compute; reflexivity).
  destruct (conversion_error_refetch demo_props demo_reader evs mid 0%nat _ geo_in
              H1 H2 H3 H4 H5) as [_ [R1 R2]].
  split; assumption.
Defined.

Lemma transport_outcomes_witness :
  let w := run demo_props demo_reader (initial demo_props) [Mount geo_in] in
  readyState (request w) = Loading /\
  log (step demo_props demo_reader w XhrError) = log w ++ [CbError TransportError] /\
  readyState (request (xhr_abort demo_props w)) = Unsent /\
  pending (step demo_props demo_reader w (XhrLoad 404 "Not Found")) = pending w.
Proof.
  intros w.
  assert (H : readyState (request w) = Loading) by (unfold w; vm_compute; reflexivity).
  destruct (transport_outcomes demo_props demo_reader w H) as [[E1 _] [[_ [_ [_ A4]]] L]].
  destruct (L 404 "Not Found") as [_ [_ [L3 _]]].
  split_conj; [exact H|exact E1|exact A4|]. rewrite L3. apply app_nil_r.
Defined.

Lemma imgProps_keys_witness :
  let props := [("alt", PStr "photo"); ("source", PStr "photo.png");
                ("width", PNum 10); ("onLoad", PFun "f"); ("className", PStr "c")] in
  NoDup (obj_keys props) /\ obj_keys (imgProps props) = ["alt"; "width"; "className"].
Proof.
  intros props.
  assert (H : NoDup (obj_keys props)).
  { unfold props, obj_keys. simpl.
    repeat (constructor; [simpl; intros H; repeat (destruct H as [H|H]; [discriminate H|]); exact H|]).
    constructor. }
  split; [exact H|]. rewrite (imgProps_keys props H). reflexivity.
Defined.
